(** * Box workshop helpers: the intelligence manager and the sign-workshop seeding script

    A shallow embedding of [utils/intelligence.py] and
    [workshops/sign/create_samples.py].  Both files are glue over the vendor
    SDK ([box_sdk_gen]) and over helpers of [utils.box_utils]; every imported
    function is a field of an interface class, so each theorem holds for every
    behaviour those functions may have (returning, raising, changing the outside
    world).  Python objects that are shared by reference (the manager, the
    header dictionaries) live in an explicit store. *)

From stdpp Require Import gmap strings list fin_maps.

(** ** Results, exceptions and the state-and-exception monad *)

Module Py.

(** A Python call either returns a value or raises. *)
Inductive Res (E A : Type) : Type :=
| Ok (a : A)
| Raise (e : E).
Arguments Ok {E A} a.
Arguments Raise {E A} e.

(** A statement sequence over a program state [S]: the state survives a
    raise, as the heap of a Python program does. *)
Definition M (S E A : Type) : Type := S -> Res E A * S.

Definition ret {S E A} (a : A) : M S E A := fun s => (Ok a, s).

Definition raise {S E A} (e : E) : M S E A := fun s => (Raise e, s).

Definition bind {S E A B} (m : M S E A) (k : A -> M S E B) : M S E B :=
  fun s =>
    match m s with
    | (Ok a, s') => k a s'
    | (Raise e, s') => (Raise e, s')
    end.

Definition gets {S E A} (f : S -> A) : M S E A := fun s => (Ok (f s), s).

Definition modify {S E} (f : S -> S) : M S E unit := fun s => (Ok tt, f s).

Declare Scope py_scope.
Delimit Scope py_scope with py.
Notation "x <- c1 ;; c2" := (bind c1 (fun x => c2))
  (at level 100, c1 at next level, right associativity) : py_scope.

End Py.

(** ** utils/intelligence.py *)

Module Intelligence.
Import Py.
Local Open Scope py_scope.

(** References to Python objects held in the store. *)
Abbreviation loc := positive.

(** [Dict[str, Optional[str]]]: the caller's extra headers. *)
Abbreviation Headers := (gmap string (option string)).

(** [Dict[str, str]]: what [prepare_params] hands back. *)
Abbreviation HeadersMap := (gmap string string).

(** The types the module imports: the schema classes of [utils.ai_schemas]
    and the SDK's own classes.  [Authentication] and [NetworkSession] are
    handles of SDK objects, so equality of handles is object identity. *)
Class BoxTypes : Type := {
  IntelligenceMode : Type;
  IntelligenceItem : Type;
  Authentication : Type;
  NetworkSession : Type;
  SerializedData : Type;
  FetchResponse : Type;
  PyClass : Type;
  PyObject : Type;
  SdkError : Type;
  World : Type
}.

Section Model.
Context `{BT : BoxTypes}.

(** The values stored under the keys of a request body. *)
Inductive PyVal : Type :=
| PyNone
| PyStr (s : string)
| PyMode (m : IntelligenceMode)
| PyItems (l : list IntelligenceItem).

(** A dict literal, in the order its keys are written. *)
Definition PyDict : Type := list (string * PyVal).

(** [d.get(k)] on a dict literal. *)
Fixpoint dict_get (k : string) (d : PyDict) : option PyVal :=
  match d with
  | [] => None
  | (k', v) :: d' => if String.eqb k k' then Some v else dict_get k d'
  end.

(** An [Optional[List[IntelligenceItem]]] argument as a Python value. *)
Definition py_of_opt_items (o : option (list IntelligenceItem)) : PyVal :=
  match o with
  | None => PyNone
  | Some l => PyItems l
  end.

(** The keyword arguments the module gives to [FetchOptions]. *)
Record FetchOptions : Type := {
  fo_method : string;
  fo_headers : HeadersMap;
  fo_data : SerializedData;
  fo_content_type : string;
  fo_response_format : string;
  fo_auth : option Authentication;
  fo_network_session : option NetworkSession
}.

(** The imported functions.  Each one acts on the outside world and
    either returns or raises; [prepare_params] is given a dictionary
    object and also says what that object holds afterwards. *)
Class BoxSdk : Type := {
  new_network_session : World -> Res SdkError NetworkSession * World;
  base_url : NetworkSession -> World -> string;
  prepare_params : Headers -> World -> Res SdkError HeadersMap * Headers * World;
  serialize : PyDict -> World -> Res SdkError SerializedData * World;
  fetch : string -> FetchOptions -> World -> Res SdkError FetchResponse * World;
  response_data : FetchResponse -> SerializedData;
  deserialize : SerializedData -> PyClass -> World -> Res SdkError PyObject * World;
  IntelligenceResponse : PyClass
}.

Context `{SDK : BoxSdk}.

(** The attributes of an [IntelligenceManager] instance. *)
Record IntelligenceManager : Type := {
  auth : option Authentication;
  network_session : option NetworkSession
}.

(** What a call of the module can raise: what an imported function
    raised, or the attribute error of reading through a missing
    attribute or through [None]. *)
Inductive Exn : Type :=
| SdkRaised (e : SdkError)
| AttributeError (owner attr : string).

(** One call of an imported function, with its arguments and outcome. *)
Inductive Call : Type :=
| CallNetworkSession (r : Res SdkError NetworkSession)
| CallPrepareParams (arg : Headers) (r : Res SdkError HeadersMap)
| CallSerialize (body : PyDict) (r : Res SdkError SerializedData)
| CallFetch (url : string) (opts : FetchOptions) (r : Res SdkError FetchResponse)
| CallDeserialize (data : SerializedData) (cls : PyClass) (r : Res SdkError PyObject).

(** Program state: the outside world, the manager objects, the header
    dictionaries, and the imported calls made so far (oldest first). *)
Record State : Type := {
  world : World;
  objs : gmap loc IntelligenceManager;
  dicts : gmap loc Headers;
  calls : list Call
}.

Definition set_world (w : World) (st : State) : State :=
  {| world := w; objs := objs st; dicts := dicts st; calls := calls st |}.

Definition set_obj (l : loc) (m : IntelligenceManager) (st : State) : State :=
  {| world := world st; objs := <[l := m]> (objs st); dicts := dicts st;
     calls := calls st |}.

Definition set_dict (l : loc) (h : Headers) (st : State) : State :=
  {| world := world st; objs := objs st; dicts := <[l := h]> (dicts st);
     calls := calls st |}.

Definition log (c : Call) (st : State) : State :=
  {| world := world st; objs := objs st; dicts := dicts st;
     calls := calls st ++ [c] |}.

Definition lift_res {A} (r : Res SdkError A) : Res Exn A :=
  match r with
  | Ok a => Ok a
  | Raise e => Raise (SdkRaised e)
  end.

(** Calling an imported function: it runs on the world, the call is
    logged, and what it raises is raised here. *)
Definition sdk_call {A} (op : World -> Res SdkError A * World)
    (ev : Res SdkError A -> Call) : M State Exn A :=
  fun st =>
    let '(r, w) := op (world st) in
    (lift_res r, log (ev r) (set_world w st)).

(** A new dictionary object holding [h]. *)
Definition new_dict (h : Headers) : M State Exn loc :=
  fun st =>
    let l := fresh (dom (dicts st)) in
    (Ok l, set_dict l h st).

(** What the dictionary object [l] holds. *)
Definition read_dict (l : loc) : M State Exn Headers :=
  gets (fun st => dicts st !!! l).

(** [prepare_params(d)] on the dictionary object [d]. *)
Definition call_prepare_params (d : loc) : M State Exn HeadersMap :=
  fun st =>
    let h := dicts st !!! d in
    let '(r, h', w) := prepare_params h (world st) in
    (lift_res r, log (CallPrepareParams h r) (set_dict d h' (set_world w st))).

(** [self.auth] *)
Definition get_auth (self : loc) : M State Exn (option Authentication) :=
  o <- gets (fun st => objs st !! self) ;;
  match o with
  | Some m => ret (auth m)
  | None => raise (AttributeError "IntelligenceManager" "auth")
  end.

(** [self.network_session] *)
Definition get_network_session (self : loc) : M State Exn (option NetworkSession) :=
  o <- gets (fun st => objs st !! self) ;;
  match o with
  | Some m => ret (network_session m)
  | None => raise (AttributeError "IntelligenceManager" "network_session")
  end.

(** [ns.base_urls.base_url] *)
Definition get_base_url (ns : option NetworkSession) : M State Exn string :=
  match ns with
  | Some n => gets (fun st => base_url n (world st))
  | None => raise (AttributeError "NoneType" "base_urls")
  end.

(** [IntelligenceManager.__init__] on the new object [self]. *)
Definition init (self : loc) (auth_arg : option Authentication)
    (network_session_arg : option NetworkSession) : M State Exn unit :=
  network_session_arg <-
    match network_session_arg with
    | None =>
        n <- sdk_call new_network_session CallNetworkSession ;;
        ret (Some n)
    | Some n => ret (Some n)
    end ;;
  modify (set_obj self
            {| auth := auth_arg; network_session := network_session_arg |}).

(** [IntelligenceManager.intelligence_ask] *)
Definition intelligence_ask (self : loc) (mode : IntelligenceMode)
    (prompt : string) (items : list IntelligenceItem)
    (extra_headers : option loc) : M State Exn PyObject :=
  extra_headers <-
    match extra_headers with
    | None => new_dict ∅
    | Some d => ret d
    end ;;
  let request_body : PyDict :=
    [("mode", PyMode mode); ("prompt", PyStr prompt); ("items", PyItems items)] in
  unpacked <- read_dict extra_headers ;;
  copy <- new_dict unpacked ;;
  headers_map <- call_prepare_params copy ;;
  ns <- get_network_session self ;;
  base <- get_base_url ns ;;
  let url := String.concat "" [base; "/ai/ask"] in
  data <- sdk_call (serialize request_body) (CallSerialize request_body) ;;
  a <- get_auth self ;;
  ns' <- get_network_session self ;;
  let options :=
    {| fo_method := "POST";
       fo_headers := headers_map;
       fo_data := data;
       fo_content_type := "application/json";
       fo_response_format := "json";
       fo_auth := a;
       fo_network_session := ns' |} in
  response <- sdk_call (fetch url options) (CallFetch url options) ;;
  sdk_call (deserialize (response_data response) IntelligenceResponse)
           (CallDeserialize (response_data response) IntelligenceResponse).

(** [IntelligenceManager.intelligence_text_gen] *)
Definition intelligence_text_gen (self : loc) (prompt : string)
    (items : list IntelligenceItem)
    (dialogue_history : option (list IntelligenceItem))
    (extra_headers : option loc) : M State Exn PyObject :=
  extra_headers <-
    match extra_headers with
    | None => new_dict ∅
    | Some d => ret d
    end ;;
  let request_body : PyDict :=
    [("prompt", PyStr prompt);
     ("items", PyItems items);
     ("dialogue_history", py_of_opt_items dialogue_history)] in
  unpacked <- read_dict extra_headers ;;
  copy <- new_dict unpacked ;;
  headers_map <- call_prepare_params copy ;;
  ns <- get_network_session self ;;
  base <- get_base_url ns ;;
  let url := String.concat "" [base; "/ai/text_gen"] in
  data <- sdk_call (serialize request_body) (CallSerialize request_body) ;;
  a <- get_auth self ;;
  ns' <- get_network_session self ;;
  let options :=
    {| fo_method := "POST";
       fo_headers := headers_map;
       fo_data := data;
       fo_content_type := "application/json";
       fo_response_format := "json";
       fo_auth := a;
       fo_network_session := ns' |} in
  response <- sdk_call (fetch url options) (CallFetch url options) ;;
  sdk_call (deserialize (response_data response) IntelligenceResponse)
           (CallDeserialize (response_data response) IntelligenceResponse).

(** The imported calls made between two states of one run. *)
Definition new_calls (st st' : State) : list Call :=
  drop (length (calls st)) (calls st').

(** The [fetch] calls of a log: URL and options, in call order. *)
Fixpoint fetches (cs : list Call) : list (string * FetchOptions) :=
  match cs with
  | [] => []
  | CallFetch url o _ :: cs' => (url, o) :: fetches cs'
  | _ :: cs' => fetches cs'
  end.

(** What [{**extra_headers}] unpacks, after the [None] default. *)
Definition headers_of (st : State) (extra_headers : option loc) : Headers :=
  match extra_headers with
  | None => ∅
  | Some d => dicts st !!! d
  end.

(** The outcome a logged call had, when it raised. *)
Definition call_raised (c : Call) : option SdkError :=
  match c with
  | CallNetworkSession (Raise e)
  | CallPrepareParams _ (Raise e)
  | CallSerialize _ (Raise e)
  | CallFetch _ _ (Raise e)
  | CallDeserialize _ _ (Raise e) => Some e
  | _ => None
  end.

(** The spec's wording of both request methods: build a dictionary,
    serialize it, POST it to a fixed path, deserialize the JSON response into
    the response class.  Written from the specification, with the path and
    the dictionary left open; the two methods above are compared with it. *)
Definition post_and_deserialize (path : string) (request_body : PyDict)
    (self : loc) (extra_headers : option loc) : M State Exn PyObject :=
  extra_headers <-
    match extra_headers with
    | None => new_dict ∅
    | Some d => ret d
    end ;;
  unpacked <- read_dict extra_headers ;;
  copy <- new_dict unpacked ;;
  headers_map <- call_prepare_params copy ;;
  ns <- get_network_session self ;;
  base <- get_base_url ns ;;
  let url := String.concat "" [base; path] in
  data <- sdk_call (serialize request_body) (CallSerialize request_body) ;;
  a <- get_auth self ;;
  ns' <- get_network_session self ;;
  let options :=
    {| fo_method := "POST";
       fo_headers := headers_map;
       fo_data := data;
       fo_content_type := "application/json";
       fo_response_format := "json";
       fo_auth := a;
       fo_network_session := ns' |} in
  response <- sdk_call (fetch url options) (CallFetch url options) ;;
  sdk_call (deserialize (response_data response) IntelligenceResponse)
           (CallDeserialize (response_data response) IntelligenceResponse).

(** The options of a JSON POST made for the manager [m]. *)
Definition json_post (hm : HeadersMap) (d : SerializedData)
    (m : IntelligenceManager) : FetchOptions :=
  {| fo_method := "POST";
     fo_headers := hm;
     fo_data := d;
     fo_content_type := "application/json";
     fo_response_format := "json";
     fo_auth := auth m;
     fo_network_session := network_session m |}.

(** The runs of a request method from the state [st], as a relation between
    what the method gives back and the imported calls it made: one rule per
    place where the run can end. *)
Inductive PostRun (st : State) (path : string) (body : PyDict) (self : loc)
    (eh : option loc) : Res Exn PyObject -> list Call -> Prop :=
| run_prepare_raises e h' w1 :
    prepare_params (headers_of st eh) (world st) = (Raise e, h', w1) ->
    PostRun st path body self eh (Raise (SdkRaised e))
      [CallPrepareParams (headers_of st eh) (Raise e)]
| run_no_attribute hm h' w1 :
    prepare_params (headers_of st eh) (world st) = (Ok hm, h', w1) ->
    objs st !! self = None ->
    PostRun st path body self eh
      (Raise (AttributeError "IntelligenceManager" "network_session"))
      [CallPrepareParams (headers_of st eh) (Ok hm)]
| run_no_session hm h' w1 m :
    prepare_params (headers_of st eh) (world st) = (Ok hm, h', w1) ->
    objs st !! self = Some m ->
    network_session m = None ->
    PostRun st path body self eh
      (Raise (AttributeError "NoneType" "base_urls"))
      [CallPrepareParams (headers_of st eh) (Ok hm)]
| run_serialize_raises hm h' w1 m ns e w2 :
    prepare_params (headers_of st eh) (world st) = (Ok hm, h', w1) ->
    objs st !! self = Some m ->
    network_session m = Some ns ->
    serialize body w1 = (Raise e, w2) ->
    PostRun st path body self eh (Raise (SdkRaised e))
      [CallPrepareParams (headers_of st eh) (Ok hm);
       CallSerialize body (Raise e)]
| run_fetch_raises hm h' w1 m ns d w2 e w3 :
    prepare_params (headers_of st eh) (world st) = (Ok hm, h', w1) ->
    objs st !! self = Some m ->
    network_session m = Some ns ->
    serialize body w1 = (Ok d, w2) ->
    fetch (base_url ns w1 +:+ path) (json_post hm d m) w2 = (Raise e, w3) ->
    PostRun st path body self eh (Raise (SdkRaised e))
      [CallPrepareParams (headers_of st eh) (Ok hm);
       CallSerialize body (Ok d);
       CallFetch (base_url ns w1 +:+ path) (json_post hm d m) (Raise e)]
| run_fetched hm h' w1 m ns d w2 resp w3 r w4 :
    prepare_params (headers_of st eh) (world st) = (Ok hm, h', w1) ->
    objs st !! self = Some m ->
    network_session m = Some ns ->
    serialize body w1 = (Ok d, w2) ->
    fetch (base_url ns w1 +:+ path) (json_post hm d m) w2 = (Ok resp, w3) ->
    deserialize (response_data resp) IntelligenceResponse w3 = (r, w4) ->
    PostRun st path body self eh (lift_res r)
      [CallPrepareParams (headers_of st eh) (Ok hm);
       CallSerialize body (Ok d);
       CallFetch (base_url ns w1 +:+ path) (json_post hm d m) (Ok resp);
       CallDeserialize (response_data resp) IntelligenceResponse r].

(** Which imported function a logged call is a call of. *)
Inductive Kind : Type :=
| KNetworkSession
| KPrepareParams
| KSerialize
| KFetch
| KDeserialize.

Definition call_kind (c : Call) : Kind :=
  match c with
  | CallNetworkSession _ => KNetworkSession
  | CallPrepareParams _ _ => KPrepareParams
  | CallSerialize _ _ => KSerialize
  | CallFetch _ _ _ => KFetch
  | CallDeserialize _ _ _ => KDeserialize
  end.

End Model.

(** A small concrete SDK to run the model on: a network session is its base
    URL, [prepare_params] drops the headers set to [None], serialization
    keeps the keys of the dictionary, [fetch] echoes the body it is sent and
    counts the requests in the world. *)
Module Sample.

#[local] Instance types : BoxTypes := {|
  IntelligenceMode := string;
  IntelligenceItem := string;
  Authentication := string;
  NetworkSession := string;
  SerializedData := list string;
  FetchResponse := list string;
  PyClass := string;
  PyObject := list string;
  SdkError := string;
  World := nat
|}.

#[local] Instance sdk : BoxSdk := {|
  new_network_session := fun w => (Ok "https://api.box.com/2.0", w);
  base_url := fun ns _ => ns;
  prepare_params := fun h w => (Ok (omap id h), h, w);
  serialize := fun body w => (Ok (fst <$> body), w);
  fetch := fun _ o w => (Ok (fo_data o), S w);
  response_data := fun r => r;
  deserialize := fun d _ w => (Ok d, w);
  IntelligenceResponse := "IntelligenceResponse"
|}.

(** The same SDK with the network down: [fetch] raises. *)
Definition offline : BoxSdk := {|
  new_network_session := fun w => (Ok "https://api.box.com/2.0", w);
  base_url := fun ns _ => ns;
  prepare_params := fun h w => (Ok (omap id h), h, w);
  serialize := fun body w => (Ok (fst <$> body), w);
  fetch := fun _ _ w => (Raise "connection refused", S w);
  response_data := fun r => r;
  deserialize := fun d _ w => (Ok d, w);
  IntelligenceResponse := "IntelligenceResponse"
|}.

(** Nothing allocated, no call made. *)
Definition empty : State :=
  {| world := 0; objs := ∅; dicts := ∅; calls := [] |}.

(** A manager at reference 1 built with a token and no session, and the
    caller's header dictionary at reference 1. *)
Definition ready : State :=
  set_dict 1 {[ "x-rep-hints" := Some "[pdf]"; "x-unset" := None ]}
    (init 1 (Some "token") None empty).2.

(** The manager of [ready]. *)
Definition manager : IntelligenceManager (BT := types) :=
  {| auth := Some "token"; network_session := Some "https://api.box.com/2.0" |}.

(** What the sample SDK gives back for a dictionary of these keys. *)
Definition echo (keys : list string) : SerializedData (BoxTypes := types) := keys.

(** The options of a request of [manager] with the headers of [ready]. *)
Definition options (keys : list string) : FetchOptions (BT := types) :=
  json_post (BT := types) {[ "x-rep-hints" := "[pdf]" ]} (echo keys) manager.

(** The sample SDK when no session can be constructed. *)
Definition sessionless : BoxSdk := {|
  new_network_session := fun w => (Raise "no configuration", w);
  base_url := fun ns _ => ns;
  prepare_params := fun h w => (Ok (omap id h), h, w);
  serialize := fun body w => (Ok (fst <$> body), w);
  fetch := fun _ o w => (Ok (fo_data o), S w);
  response_data := fun r => r;
  deserialize := fun d _ w => (Ok d, w);
  IntelligenceResponse := "IntelligenceResponse"
|}.

(** [ready] after [manager.network_session = None]. *)
Definition cleared : State :=
  set_obj 1 {| auth := Some "token"; network_session := None |} ready.

(** [ready] with one more dictionary, at reference 2, holding no header. *)
Definition with_blank : State := set_dict 2 ∅ ready.

End Sample.

End Intelligence.

(** ** workshops/sign/create_samples.py *)

Module CreateSamples.
Import Py.
Local Open Scope py_scope.

(** What the script imports: the SDK client and its folder objects, and the
    outside world (the Box account and the local files) its helpers act on. *)
Class BoxTypes : Type := {
  Client : Type;
  Folder : Type;
  Uploaded : Type;
  BoxError : Type;
  Outside : Type
}.

(** [client.folders.get_folder_by_id] of the SDK, and [create_box_folder] and
    [folder_upload] of [utils.box_utils]. *)
Class BoxUtils `{BoxTypes} : Type := {
  get_folder_by_id : Client -> string -> Outside -> Res BoxError Folder * Outside;
  create_box_folder :
    Client -> string -> Folder -> Outside -> Res BoxError Folder * Outside;
  folder_upload :
    Client -> Folder -> string -> Outside -> Res BoxError Uploaded * Outside
}.

Section Model.
Context `{BU : BoxUtils}.

(** One call made by the script, with its arguments and outcome. *)
Inductive Call : Type :=
| CallGetFolderById (client : Client) (folder_id : string) (r : Res BoxError Folder)
| CallCreateBoxFolder (client : Client) (name : string) (parent : Folder)
    (r : Res BoxError Folder)
| CallFolderUpload (client : Client) (folder : Folder) (path : string)
    (r : Res BoxError Uploaded).

(** The outside world and the calls made so far (oldest first). *)
Record State : Type := {
  outside : Outside;
  calls : list Call
}.

(** Calling an imported function: it runs on the outside world, the call is
    logged, and what it raises is raised here. *)
Definition call {A} (op : Outside -> Res BoxError A * Outside)
    (ev : Res BoxError A -> Call) : M State BoxError A :=
  fun st =>
    let '(r, o) := op (outside st) in
    (r, {| outside := o; calls := calls st ++ [ev r] |}).

(** [create_samples] *)
Definition create_samples (client : Client) : M State BoxError unit :=
  root <- call (get_folder_by_id client "0") (CallGetFolderById client "0") ;;
  wks_folder <- call (create_box_folder client "workshops" root)
                     (CallCreateBoxFolder client "workshops" root) ;;
  module_folder <- call (create_box_folder client "sign" wks_folder)
                        (CallCreateBoxFolder client "sign" wks_folder) ;;
  _ <- call (create_box_folder client "signed docs" module_folder)
            (CallCreateBoxFolder client "signed docs" module_folder) ;;
  docs_folder <- call (create_box_folder client "docs" module_folder)
                      (CallCreateBoxFolder client "docs" module_folder) ;;
  _ <- call (folder_upload client docs_folder "workshops/sign/content_samples/")
            (CallFolderUpload client docs_folder "workshops/sign/content_samples/") ;;
  ret tt.

(** The calls made between two states of one run. *)
Definition new_calls (st st' : State) : list Call :=
  drop (length (calls st)) (calls st').

(** The six calls of a run in which none raises, given what each returned. *)
Definition seeding (client : Client) (root wks sign signed docs : Folder)
    (up : Uploaded) : list Call :=
  [CallGetFolderById client "0" (Ok root);
   CallCreateBoxFolder client "workshops" root (Ok wks);
   CallCreateBoxFolder client "sign" wks (Ok sign);
   CallCreateBoxFolder client "signed docs" sign (Ok signed);
   CallCreateBoxFolder client "docs" sign (Ok docs);
   CallFolderUpload client docs "workshops/sign/content_samples/" (Ok up)].

(** The outcome a logged call had, when it raised. *)
Definition call_raised (c : Call) : option BoxError :=
  match c with
  | CallGetFolderById _ _ (Raise e)
  | CallCreateBoxFolder _ _ _ (Raise e)
  | CallFolderUpload _ _ _ (Raise e) => Some e
  | _ => None
  end.

(** The runs of the script, as a relation between what it gives back and
    the calls it made: it stops at the first call that raises, and returns
    [None] after the upload. *)
Inductive SamplesRun (client : Client) : Res BoxError unit -> list Call -> Prop :=
| stop_at_root e :
    SamplesRun client (Raise e)
      [CallGetFolderById client "0" (Raise e)]
| stop_at_workshops root e :
    SamplesRun client (Raise e)
      [CallGetFolderById client "0" (Ok root);
       CallCreateBoxFolder client "workshops" root (Raise e)]
| stop_at_sign root wks e :
    SamplesRun client (Raise e)
      [CallGetFolderById client "0" (Ok root);
       CallCreateBoxFolder client "workshops" root (Ok wks);
       CallCreateBoxFolder client "sign" wks (Raise e)]
| stop_at_signed_docs root wks sign e :
    SamplesRun client (Raise e)
      [CallGetFolderById client "0" (Ok root);
       CallCreateBoxFolder client "workshops" root (Ok wks);
       CallCreateBoxFolder client "sign" wks (Ok sign);
       CallCreateBoxFolder client "signed docs" sign (Raise e)]
| stop_at_docs root wks sign signed e :
    SamplesRun client (Raise e)
      [CallGetFolderById client "0" (Ok root);
       CallCreateBoxFolder client "workshops" root (Ok wks);
       CallCreateBoxFolder client "sign" wks (Ok sign);
       CallCreateBoxFolder client "signed docs" sign (Ok signed);
       CallCreateBoxFolder client "docs" sign (Raise e)]
| stop_at_upload root wks sign signed docs e :
    SamplesRun client (Raise e)
      [CallGetFolderById client "0" (Ok root);
       CallCreateBoxFolder client "workshops" root (Ok wks);
       CallCreateBoxFolder client "sign" wks (Ok sign);
       CallCreateBoxFolder client "signed docs" sign (Ok signed);
       CallCreateBoxFolder client "docs" sign (Ok docs);
       CallFolderUpload client docs "workshops/sign/content_samples/" (Raise e)]
| seeded root wks sign signed docs up :
    SamplesRun client (Ok tt) (seeding client root wks sign signed docs up).

End Model.

(** A small concrete account to run the script on: a folder is its path, and
    creating a folder appends its name to the parent's path. *)
Module Sample.

#[local] Instance types : BoxTypes := {|
  Client := string;
  Folder := string;
  Uploaded := nat;
  BoxError := string;
  Outside := list string
|}.

#[local] Instance utils : BoxUtils := {|
  get_folder_by_id := fun _ i o => (Ok i, o);
  create_box_folder := fun _ n p o => (Ok (p +:+ "/" +:+ n), (p +:+ "/" +:+ n) :: o);
  folder_upload := fun _ f p o => (Ok 3, (f +:+ "<-" +:+ p) :: o)
|}.

(** The same account when the name "sign" is refused. *)
Definition refusing : BoxUtils := {|
  get_folder_by_id := fun _ i o => (Ok i, o);
  create_box_folder := fun _ n p o =>
    if String.eqb n "sign" then (Raise "conflict", o)
    else (Ok (p +:+ "/" +:+ n), (p +:+ "/" +:+ n) :: o);
  folder_upload := fun _ f p o => (Ok 3, (f +:+ "<-" +:+ p) :: o)
|}.

Definition empty : State := {| outside := []; calls := [] |}.

End Sample.

End CreateSamples.

(** ** workshops/search/search_init.py *)

Module SearchInit.
Import Py.
Local Open Scope py_scope.

(** What the script imports: the OAuth configuration and the client of
    [utils.box_client_oauth], and the outside world its two callees act on. *)
Class BoxTypes : Type := {
  ConfigOAuth : Type;
  Client : Type;
  Uploaded : Type;
  BoxError : Type;
  Outside : Type
}.

(** [get_client_oauth] of [utils.box_client_oauth] and
    [upload_content_sample] of [workshops.search.create_samples]. *)
Class Imports `{BoxTypes} : Type := {
  get_client_oauth : ConfigOAuth -> Outside -> Res BoxError Client * Outside;
  upload_content_sample : Client -> Outside -> Res BoxError Uploaded * Outside
}.

Section Model.
Context `{IM : Imports}.

(** One call made by [main], with its argument and outcome. *)
Inductive Call : Type :=
| CallGetClientOAuth (conf : ConfigOAuth) (r : Res BoxError Client)
| CallUploadContentSample (client : Client) (r : Res BoxError Uploaded).

(** The outside world, the module's global [conf], and the calls made so
    far (oldest first). *)
Record State : Type := {
  outside : Outside;
  conf : ConfigOAuth;
  calls : list Call
}.

(** Calling an imported function: it runs on the outside world, the call is
    logged, and what it raises is raised here. *)
Definition call {A} (op : Outside -> Res BoxError A * Outside)
    (ev : Res BoxError A -> Call) : M State BoxError A :=
  fun st =>
    let '(r, o) := op (outside st) in
    (r, {| outside := o; conf := conf st; calls := calls st ++ [ev r] |}).

(** [main] *)
Definition main : M State BoxError unit :=
  c <- gets conf ;;
  client <- call (get_client_oauth c) (CallGetClientOAuth c) ;;
  _ <- call (upload_content_sample client) (CallUploadContentSample client) ;;
  ret tt.

(** The calls made between two states of one run. *)
Definition new_calls (st st' : State) : list Call :=
  drop (length (calls st)) (calls st').

End Model.

(** A small concrete setting to run [main] on: the client of a
    configuration is its name, and an upload counts one more sample. *)
Module Sample.

#[local] Instance types : BoxTypes := {|
  ConfigOAuth := string;
  Client := string;
  Uploaded := nat;
  BoxError := string;
  Outside := nat
|}.

#[local] Instance imports : Imports := {|
  get_client_oauth := fun c o => (Ok ("client of " +:+ c), o);
  upload_content_sample := fun _ o => (Ok (S o), S o)
|}.

(** The same setting when the token is refused. *)
Definition unauthorized : Imports := {|
  get_client_oauth := fun _ o => (Raise "invalid_grant", o);
  upload_content_sample := fun _ o => (Ok (S o), S o)
|}.

Definition start : State := {| outside := 0; conf := ".oauth.env"; calls := [] |}.

End Sample.

End SearchInit.

(** * Properties of utils/intelligence.py *)

Module IntelligenceSpec.
Import Py Intelligence.

Section Runs.
Context `{SDK : BoxSdk}.

(** ** Running a request method symbolically *)

Ltac run_cbn := cbn -[fresh String.append drop length app].

Ltac run_step :=
  match goal with
  | H : ?x = _ |- context [match ?x with _ => _ end] => rewrite H
  | |- context [prepare_params ?h ?w] =>
      destruct (prepare_params h w) as [[[?|?] ?] ?] eqn:?
  | |- context [match objs ?s !! ?l with _ => _ end] =>
      destruct (objs s !! l) as [?|] eqn:?
  | |- context [match network_session ?m with _ => _ end] =>
      destruct (network_session m) as [?|] eqn:?
  | |- context [serialize ?b ?w] =>
      destruct (serialize b w) as [[?|?] ?] eqn:?
  | |- context [fetch ?u ?o ?w] =>
      destruct (fetch u o w) as [[?|?] ?] eqn:?
  | |- context [deserialize ?d ?c ?w] =>
      destruct (deserialize d c w) as [? ?] eqn:?
  end; run_cbn.

Ltac run_method :=
  unfold post_and_deserialize, get_network_session, get_base_url, get_auth,
    new_dict, read_dict, call_prepare_params, sdk_call, bind, ret, raise, gets;
  run_cbn; rewrite ?lookup_total_insert_eq; repeat run_step.

(** [intelligence_ask] is the spec's skeleton at the path "/ai/ask" and the
    dictionary of mode, prompt and items. *)
Lemma ask_skeleton self mode prompt items eh :
  intelligence_ask self mode prompt items eh =
  post_and_deserialize "/ai/ask"
    [("mode", PyMode mode); ("prompt", PyStr prompt); ("items", PyItems items)]
    self eh.
Proof. reflexivity. Qed.

(** [intelligence_text_gen] is the spec's skeleton at the path "/ai/text_gen"
    and the dictionary of prompt, items and dialogue history. *)
Lemma text_gen_skeleton self prompt items dialogue_history eh :
  intelligence_text_gen self prompt items dialogue_history eh =
  post_and_deserialize "/ai/text_gen"
    [("prompt", PyStr prompt); ("items", PyItems items);
     ("dialogue_history", py_of_opt_items dialogue_history)]
    self eh.
Proof. reflexivity. Qed.

(** Every run of the skeleton is one of the runs of [PostRun]. *)
Lemma post_run_sound st path body self eh :
  PostRun st path body self eh
    (post_and_deserialize path body self eh st).1
    (new_calls st (post_and_deserialize path body self eh st).2).
Proof.
  unfold new_calls.
  destruct eh as [d|]; cbn [headers_of]; run_method.
  all: rewrite <- ?app_assoc, drop_app_length; run_cbn.
  all: change (String.append "" path) with path.
  all: solve [econstructor; eauto].
Qed.

(** A run leaves the manager objects alone and only writes dictionaries it
    allocated itself. *)
Lemma post_frame st path body self eh :
  objs (post_and_deserialize path body self eh st).2 = objs st /\
  forall l, is_Some (dicts st !! l) ->
    dicts (post_and_deserialize path body self eh st).2 !! l = dicts st !! l.
Proof.
  assert (Hfresh : forall (ds : gmap loc Headers) l,
            is_Some (ds !! l) -> fresh (dom ds) <> l).
  { intros ds l Hl Heq. apply elem_of_dom in Hl. rewrite <- Heq in Hl.
    by apply is_fresh in Hl. }
  split.
  - destruct eh as [d|]; run_method; reflexivity.
  - intros l Hl.
    destruct eh as [d|]; run_method.
    all: rewrite ?lookup_insert_ne; try done.
    all: try (apply Hfresh; rewrite ?lookup_insert_ne; by auto).
Qed.

(** Two outcomes recorded for one call are the same outcome. *)
Ltac merge_eqs :=
  simplify_eq;
  repeat match goal with
         | H1 : ?x = _, H2 : ?x = _ |- _ => rewrite H1 in H2; simplify_eq
         end.

(** Case analysis of a goal stated on a run's result and new calls. *)
Ltac run_cases st path body self eh :=
  generalize (post_run_sound st path body self eh);
  generalize ((post_and_deserialize path body self eh st).1);
  generalize (new_calls st (post_and_deserialize path body self eh st).2);
  let cs := fresh "cs" in
  let r := fresh "r" in
  let Hrun := fresh "Hrun" in
  intros cs r Hrun; destruct Hrun; cbn [In fetches length call_raised last].

(** When [prepare_params] and [serialize] return and the manager has a
    session, the run fetches once, from the base URL followed by the path,
    with the serialized dictionary as data. *)
Lemma post_once st path body self eh m ns hm h' w1 d w2 :
  objs st !! self = Some m ->
  network_session m = Some ns ->
  prepare_params (headers_of st eh) (world st) = (Ok hm, h', w1) ->
  serialize body w1 = (Ok d, w2) ->
  fetches (new_calls st (post_and_deserialize path body self eh st).2) =
    [(base_url ns w1 +:+ path, json_post hm d m)] /\
  In (CallSerialize body (Ok d))
     (new_calls st (post_and_deserialize path body self eh st).2).
Proof.
  intros Hm Hns Hp Hs.
  run_cases st path body self eh; merge_eqs; auto.
Qed.

(** A fetch that returned is followed by the deserialization of its data
    into the response class, whose outcome is the method's. *)
Lemma post_result st path body self eh url o resp :
  In (CallFetch url o (Ok resp))
     (new_calls st (post_and_deserialize path body self eh st).2) ->
  exists r w2 w3 w4,
    fetch url o w2 = (Ok resp, w3) /\
    deserialize (response_data resp) IntelligenceResponse w3 = (r, w4) /\
    (post_and_deserialize path body self eh st).1 = lift_res r /\
    last (new_calls st (post_and_deserialize path body self eh st).2) =
      Some (CallDeserialize (response_data resp) IntelligenceResponse r).
Proof.
  run_cases st path body self eh; intros Hin; intuition; simplify_eq.
  eauto 10.
Qed.

(** Every fetch of a run carries the manager's fields and the JSON POST
    settings. *)
Lemma post_options st path body self eh url o r :
  In (CallFetch url o r)
     (new_calls st (post_and_deserialize path body self eh st).2) ->
  exists m hm d ns w1,
    objs st !! self = Some m /\ network_session m = Some ns /\
    o = json_post hm d m /\ url = base_url ns w1 +:+ path /\
    (exists h', prepare_params (headers_of st eh) (world st) = (Ok hm, h', w1)).
Proof.
  run_cases st path body self eh; intros Hin; intuition; simplify_eq.
  all: do 5 eexists; repeat split; eauto.
Qed.

(** What an imported call raises is what the method raises, and a run
    fetches at most once. *)
Lemma post_errors st path body self eh :
  (forall c e,
     In c (new_calls st (post_and_deserialize path body self eh st).2) ->
     call_raised c = Some e ->
     (post_and_deserialize path body self eh st).1 = Raise (SdkRaised e)) /\
  length (fetches (new_calls st (post_and_deserialize path body self eh st).2)) <= 1.
Proof.
  run_cases st path body self eh; (split; [intros c0 e0 Hin Hr | lia]).
  all: cbn [In] in Hin; intuition; simplify_eq; cbn in Hr; simplify_eq; try done.
  all: destruct r; cbn in Hr; simplify_eq; done.
Qed.

(** Only the body given to the skeleton is serialized. *)
Lemma post_serialized st path body self eh b r :
  In (CallSerialize b r)
     (new_calls st (post_and_deserialize path body self eh st).2) ->
  b = body.
Proof.
  run_cases st path body self eh; intros Hin; intuition; simplify_eq; done.
Qed.

(** What is deserialized is the data of the response fetched in the same
    run, into the response class. *)
Lemma post_deserializes st path body self eh d c r :
  In (CallDeserialize d c r)
     (new_calls st (post_and_deserialize path body self eh st).2) ->
  c = IntelligenceResponse /\
  exists url o resp,
    In (CallFetch url o (Ok resp))
       (new_calls st (post_and_deserialize path body self eh st).2) /\
    d = response_data resp.
Proof.
  run_cases st path body self eh; intros Hin; intuition; simplify_eq.
  all: first [reflexivity | do 3 eexists; split; [| reflexivity]; auto].
Qed.

(** With a session in the manager, no attribute error is raised. *)
Lemma post_no_attribute_error st path body self eh m ns owner attr :
  objs st !! self = Some m ->
  network_session m = Some ns ->
  (post_and_deserialize path body self eh st).1 <> Raise (AttributeError owner attr).
Proof.
  intros Hm Hns.
  run_cases st path body self eh; merge_eqs; try done.
  destruct r; done.
Qed.

(** A manager that holds a session lets both methods read the base URL. *)
Lemma session_readable st self m n :
  objs st !! self = Some m ->
  network_session m = Some n ->
  (forall mode prompt items eh owner attr,
     (intelligence_ask self mode prompt items eh st).1 <>
       Raise (AttributeError owner attr)) /\
  (forall prompt items dialogue_history eh owner attr,
     (intelligence_text_gen self prompt items dialogue_history eh st).1 <>
       Raise (AttributeError owner attr)).
Proof.
  intros Hm Hn. split; intros.
  - rewrite ask_skeleton. eapply post_no_attribute_error; eauto.
  - rewrite text_gen_skeleton. eapply post_no_attribute_error; eauto.
Qed.

(** When every imported call returns up to the fetch, the run is the four
    calls, each made on the world the one before left, and its result is
    the outcome of the deserialization. *)
Lemma post_fetched st path body self eh m ns hm h' w1 d w2 resp w3 r w4 :
  objs st !! self = Some m ->
  network_session m = Some ns ->
  prepare_params (headers_of st eh) (world st) = (Ok hm, h', w1) ->
  serialize body w1 = (Ok d, w2) ->
  fetch (base_url ns w1 +:+ path) (json_post hm d m) w2 = (Ok resp, w3) ->
  deserialize (response_data resp) IntelligenceResponse w3 = (r, w4) ->
  (post_and_deserialize path body self eh st).1 = lift_res r /\
  new_calls st (post_and_deserialize path body self eh st).2 =
    [CallPrepareParams (headers_of st eh) (Ok hm);
     CallSerialize body (Ok d);
     CallFetch (base_url ns w1 +:+ path) (json_post hm d m) (Ok resp);
     CallDeserialize (response_data resp) IntelligenceResponse r].
Proof.
  intros Hm Hns Hp Hs Hf Hd.
  run_cases st path body self eh; merge_eqs; auto.
Qed.

(** ** The request methods *)

(** C1. [intelligence_ask] issues exactly one POST, to the session's base
    URL followed by "/ai/ask", and its body is the serialization of the
    dictionary of mode, prompt and items, whatever these and the extra headers
    are.  The run reaches the request whenever the manager holds a session
    and the two imported helpers called before it return. *)
Theorem ask_posts_once st self m ns mode prompt items eh hm h' w1 d w2 :
  objs st !! self = Some m ->
  network_session m = Some ns ->
  prepare_params (headers_of st eh) (world st) = (Ok hm, h', w1) ->
  serialize
    [("mode", PyMode mode); ("prompt", PyStr prompt); ("items", PyItems items)]
    w1 = (Ok d, w2) ->
  exists o,
    fetches (new_calls st (intelligence_ask self mode prompt items eh st).2) =
      [(base_url ns w1 +:+ "/ai/ask", o)] /\
    fo_method o = "POST" /\
    fo_data o = d /\
    In (CallSerialize
          [("mode", PyMode mode); ("prompt", PyStr prompt); ("items", PyItems items)]
          (Ok d))
       (new_calls st (intelligence_ask self mode prompt items eh st).2).
Proof.
  intros Hm Hns Hp Hs. rewrite ask_skeleton.
  destruct (post_once st "/ai/ask" _ self eh m ns hm h' w1 d w2 Hm Hns Hp Hs)
    as [Hf Hin].
  exists (json_post hm d m). rewrite Hf. auto.
Qed.

(** C2. [intelligence_text_gen] issues exactly one POST, to the session's
    base URL followed by "/ai/text_gen", and its body is the serialization of
    the dictionary of prompt, items and dialogue history, under the same
    conditions as for [intelligence_ask]. *)
Theorem text_gen_posts_once st self m ns prompt items dialogue_history eh
    hm h' w1 d w2 :
  objs st !! self = Some m ->
  network_session m = Some ns ->
  prepare_params (headers_of st eh) (world st) = (Ok hm, h', w1) ->
  serialize
    [("prompt", PyStr prompt); ("items", PyItems items);
     ("dialogue_history", py_of_opt_items dialogue_history)]
    w1 = (Ok d, w2) ->
  exists o,
    fetches (new_calls st
               (intelligence_text_gen self prompt items dialogue_history eh st).2) =
      [(base_url ns w1 +:+ "/ai/text_gen", o)] /\
    fo_method o = "POST" /\
    fo_data o = d /\
    In (CallSerialize
          [("prompt", PyStr prompt); ("items", PyItems items);
           ("dialogue_history", py_of_opt_items dialogue_history)]
          (Ok d))
       (new_calls st
          (intelligence_text_gen self prompt items dialogue_history eh st).2).
Proof.
  intros Hm Hns Hp Hs. rewrite text_gen_skeleton.
  destruct (post_once st "/ai/text_gen" _ self eh m ns hm h' w1 d w2 Hm Hns Hp Hs)
    as [Hf Hin].
  exists (json_post hm d m). rewrite Hf. auto.
Qed.

(** C3. When the fetch call returns a response, either method gives back
    exactly the outcome of deserializing the response's data into the
    [IntelligenceResponse] class, and that deserialization is the last thing
    the method does.  Either method reaches that point whenever the manager
    holds a session and the imported calls before it return: it then makes
    the fetch, and its result is what [deserialize] gives for the data of the
    response, on the world the fetch left. *)
Theorem response_deserialized st self mode prompt items dialogue_history eh :
  (forall url o resp,
     In (CallFetch url o (Ok resp))
        (new_calls st (intelligence_ask self mode prompt items eh st).2) ->
     exists r w2 w3 w4,
       fetch url o w2 = (Ok resp, w3) /\
       deserialize (response_data resp) IntelligenceResponse w3 = (r, w4) /\
       (intelligence_ask self mode prompt items eh st).1 = lift_res r /\
       last (new_calls st (intelligence_ask self mode prompt items eh st).2) =
         Some (CallDeserialize (response_data resp) IntelligenceResponse r)) /\
  (forall url o resp,
     In (CallFetch url o (Ok resp))
        (new_calls st
           (intelligence_text_gen self prompt items dialogue_history eh st).2) ->
     exists r w2 w3 w4,
       fetch url o w2 = (Ok resp, w3) /\
       deserialize (response_data resp) IntelligenceResponse w3 = (r, w4) /\
       (intelligence_text_gen self prompt items dialogue_history eh st).1 =
         lift_res r /\
       last (new_calls st
               (intelligence_text_gen self prompt items dialogue_history eh st).2) =
         Some (CallDeserialize (response_data resp) IntelligenceResponse r)) /\
  (forall m ns hm h' w1,
     objs st !! self = Some m ->
     network_session m = Some ns ->
     prepare_params (headers_of st eh) (world st) = (Ok hm, h', w1) ->
     (forall d w2 resp w3 r w4,
        serialize
          [("mode", PyMode mode); ("prompt", PyStr prompt); ("items", PyItems items)]
          w1 = (Ok d, w2) ->
        fetch (base_url ns w1 +:+ "/ai/ask") (json_post hm d m) w2 = (Ok resp, w3) ->
        deserialize (response_data resp) IntelligenceResponse w3 = (r, w4) ->
        (intelligence_ask self mode prompt items eh st).1 = lift_res r /\
        In (CallFetch (base_url ns w1 +:+ "/ai/ask") (json_post hm d m) (Ok resp))
           (new_calls st (intelligence_ask self mode prompt items eh st).2) /\
        last (new_calls st (intelligence_ask self mode prompt items eh st).2) =
          Some (CallDeserialize (response_data resp) IntelligenceResponse r)) /\
     (forall d w2 resp w3 r w4,
        serialize
          [("prompt", PyStr prompt); ("items", PyItems items);
           ("dialogue_history", py_of_opt_items dialogue_history)]
          w1 = (Ok d, w2) ->
        fetch (base_url ns w1 +:+ "/ai/text_gen") (json_post hm d m) w2 =
          (Ok resp, w3) ->
        deserialize (response_data resp) IntelligenceResponse w3 = (r, w4) ->
        (intelligence_text_gen self prompt items dialogue_history eh st).1 =
          lift_res r /\
        In (CallFetch (base_url ns w1 +:+ "/ai/text_gen") (json_post hm d m)
              (Ok resp))
           (new_calls st
              (intelligence_text_gen self prompt items dialogue_history eh st).2) /\
        last (new_calls st
                (intelligence_text_gen self prompt items dialogue_history eh st).2) =
          Some (CallDeserialize (response_data resp) IntelligenceResponse r))).
Proof.
  rewrite ask_skeleton, text_gen_skeleton.
  split; [intros url o resp; apply post_result |].
  split; [intros url o resp; apply post_result |].
  intros m ns hm h' w1 Hm Hns Hp.
  split; intros d w2 resp w3 r w4 Hs Hf Hd.
  all: destruct (post_fetched _ _ _ _ _ _ _ _ _ _ _ _ _ _ _ _
                   Hm Hns Hp Hs Hf Hd) as [Hres Hcalls].
  all: rewrite Hres, Hcalls; split_and!; [reflexivity | cbn; tauto | reflexivity].
Qed.

(** C4. The options of every fetch made by either method carry the
    manager's [auth] and [network_session] fields as they are, the method
    "POST", the content type "application/json" and the response format
    "json".  Either method makes that fetch whenever the manager holds a
    session and [prepare_params] and [serialize] return: its one fetch then
    has these options, with the headers [prepare_params] returned and the
    serialized dictionary as data. *)
Theorem fetch_options_from_manager st self mode prompt items dialogue_history eh :
  (forall url o r,
     In (CallFetch url o r)
        (new_calls st (intelligence_ask self mode prompt items eh st).2) \/
     In (CallFetch url o r)
        (new_calls st
           (intelligence_text_gen self prompt items dialogue_history eh st).2) ->
     exists m,
       objs st !! self = Some m /\
       fo_auth o = auth m /\
       fo_network_session o = network_session m /\
       fo_method o = "POST" /\
       fo_content_type o = "application/json" /\
       fo_response_format o = "json") /\
  (forall m ns hm h' w1,
     objs st !! self = Some m ->
     network_session m = Some ns ->
     prepare_params (headers_of st eh) (world st) = (Ok hm, h', w1) ->
     (forall d w2,
        serialize
          [("mode", PyMode mode); ("prompt", PyStr prompt); ("items", PyItems items)]
          w1 = (Ok d, w2) ->
        exists o,
          fetches (new_calls st (intelligence_ask self mode prompt items eh st).2) =
            [(base_url ns w1 +:+ "/ai/ask", o)] /\
          fo_auth o = auth m /\
          fo_network_session o = network_session m /\
          fo_method o = "POST" /\
          fo_content_type o = "application/json" /\
          fo_response_format o = "json" /\
          fo_headers o = hm /\
          fo_data o = d) /\
     (forall d w2,
        serialize
          [("prompt", PyStr prompt); ("items", PyItems items);
           ("dialogue_history", py_of_opt_items dialogue_history)]
          w1 = (Ok d, w2) ->
        exists o,
          fetches (new_calls st
                     (intelligence_text_gen self prompt items dialogue_history eh
                        st).2) =
            [(base_url ns w1 +:+ "/ai/text_gen", o)] /\
          fo_auth o = auth m /\
          fo_network_session o = network_session m /\
          fo_method o = "POST" /\
          fo_content_type o = "application/json" /\
          fo_response_format o = "json" /\
          fo_headers o = hm /\
          fo_data o = d)).
Proof.
  rewrite ask_skeleton, text_gen_skeleton. split.
  - intros url o r [Hin | Hin]; apply post_options in Hin.
    all: destruct Hin as (m & hm & d & ns & w1 & Hm & _ & -> & _).
    all: exists m; repeat split; assumption.
  - intros m ns hm h' w1 Hm Hns Hp.
    split; intros d w2 Hs.
    + destruct (post_once st "/ai/ask" _ self eh m ns hm h' w1 d w2 Hm Hns Hp Hs)
        as [Hf _].
      exists (json_post hm d m); rewrite Hf; repeat split.
    + destruct (post_once st "/ai/text_gen" _ self eh m ns hm h' w1 d w2
                  Hm Hns Hp Hs) as [Hf _].
      exists (json_post hm d m); rewrite Hf; repeat split.
Qed.

(** C5. Neither method handles an error: when an imported call raises,
    the method raises that same exception, and a run never fetches more
    than once. *)
Theorem errors_propagate_without_retry st self mode prompt items dialogue_history eh :
  (forall c e,
     In c (new_calls st (intelligence_ask self mode prompt items eh st).2) ->
     call_raised c = Some e ->
     (intelligence_ask self mode prompt items eh st).1 = Raise (SdkRaised e)) /\
  length (fetches (new_calls st (intelligence_ask self mode prompt items eh st).2))
    <= 1 /\
  (forall c e,
     In c (new_calls st
             (intelligence_text_gen self prompt items dialogue_history eh st).2) ->
     call_raised c = Some e ->
     (intelligence_text_gen self prompt items dialogue_history eh st).1 =
       Raise (SdkRaised e)) /\
  length (fetches (new_calls st
                     (intelligence_text_gen self prompt items dialogue_history eh st).2))
    <= 1.
Proof.
  rewrite ask_skeleton, text_gen_skeleton.
  destruct (post_errors st "/ai/ask"
              [("mode", PyMode mode); ("prompt", PyStr prompt); ("items", PyItems items)]
              self eh) as [Ha Hla].
  destruct (post_errors st "/ai/text_gen"
              [("prompt", PyStr prompt); ("items", PyItems items);
               ("dialogue_history", py_of_opt_items dialogue_history)]
              self eh) as [Ht Hlt].
  auto.
Qed.

(** C6. The two methods are one computation taken at two paths and two
    dictionaries: each is the skeleton [post_and_deserialize], and from the
    same state and extra headers their fetches agree on headers, method,
    content type, response format, auth and network session, and their URLs
    share the base and differ in the suffix. *)
Theorem methods_differ_in_path_and_body st self mode prompt items dialogue_history eh :
  intelligence_ask self mode prompt items eh st =
    post_and_deserialize "/ai/ask"
      [("mode", PyMode mode); ("prompt", PyStr prompt); ("items", PyItems items)]
      self eh st /\
  intelligence_text_gen self prompt items dialogue_history eh st =
    post_and_deserialize "/ai/text_gen"
      [("prompt", PyStr prompt); ("items", PyItems items);
       ("dialogue_history", py_of_opt_items dialogue_history)]
      self eh st /\
  forall url1 o1 r1 url2 o2 r2,
    In (CallFetch url1 o1 r1)
       (new_calls st (intelligence_ask self mode prompt items eh st).2) ->
    In (CallFetch url2 o2 r2)
       (new_calls st
          (intelligence_text_gen self prompt items dialogue_history eh st).2) ->
    fo_headers o1 = fo_headers o2 /\
    fo_method o1 = fo_method o2 /\
    fo_content_type o1 = fo_content_type o2 /\
    fo_response_format o1 = fo_response_format o2 /\
    fo_auth o1 = fo_auth o2 /\
    fo_network_session o1 = fo_network_session o2 /\
    (exists base, url1 = base +:+ "/ai/ask" /\ url2 = base +:+ "/ai/text_gen") /\
    forall d c r,
      In (CallDeserialize d c r)
         (new_calls st (intelligence_ask self mode prompt items eh st).2) \/
      In (CallDeserialize d c r)
         (new_calls st
            (intelligence_text_gen self prompt items dialogue_history eh st).2) ->
      c = IntelligenceResponse.
Proof.
  split; [reflexivity | split; [reflexivity |]].
  rewrite ask_skeleton, text_gen_skeleton.
  intros url1 o1 r1 url2 o2 r2 H1 H2.
  assert (Hd : forall d c r,
             In (CallDeserialize d c r)
               (new_calls st
                  (post_and_deserialize "/ai/ask"
                     [("mode", PyMode mode); ("prompt", PyStr prompt);
                      ("items", PyItems items)] self eh st).2) \/
             In (CallDeserialize d c r)
               (new_calls st
                  (post_and_deserialize "/ai/text_gen"
                     [("prompt", PyStr prompt); ("items", PyItems items);
                      ("dialogue_history", py_of_opt_items dialogue_history)]
                     self eh st).2) ->
             c = IntelligenceResponse).
  { intros d c r [Hin | Hin]; apply post_deserializes in Hin; tauto. }
  apply post_options in H1, H2.
  destruct H1 as (m & hm & d & ns & w1 & Hm & Hns & -> & -> & h1 & Hp).
  destruct H2 as (m' & hm' & d' & ns' & w1' & Hm' & Hns' & -> & -> & h2 & Hp').
  merge_eqs. cbn. split_and!; eauto.
Qed.

(** C8. With [dialogue_history] left at [None], the dictionary that
    [intelligence_text_gen] hands to serialization has the three keys, and
    "dialogue_history" is mapped to [None]; serialization is reached whenever
    the manager holds a session and [prepare_params] returns. *)
Theorem text_gen_keeps_null_history st self prompt items eh :
  (forall body r,
     In (CallSerialize body r)
        (new_calls st (intelligence_text_gen self prompt items None eh st).2) ->
     body = [("prompt", PyStr prompt); ("items", PyItems items);
             ("dialogue_history", PyNone)] /\
     dict_get "dialogue_history" body = Some PyNone) /\
  (forall m ns hm h' w1,
     objs st !! self = Some m ->
     network_session m = Some ns ->
     prepare_params (headers_of st eh) (world st) = (Ok hm, h', w1) ->
     exists body r,
       In (CallSerialize body r)
          (new_calls st (intelligence_text_gen self prompt items None eh st).2)).
Proof.
  rewrite text_gen_skeleton. cbn [py_of_opt_items]. split.
  - intros body r Hin. apply post_serialized in Hin. subst body. split; reflexivity.
  - intros m ns hm h' w1 Hm Hns Hp.
    run_cases st "/ai/text_gen"
      [("prompt", PyStr prompt); ("items", PyItems items);
       ("dialogue_history", @PyNone BT)] self eh; merge_eqs; eauto.
Qed.

(** C10. Neither method changes the manager objects, and a dictionary
    that exists before the call, the caller's extra headers among them, holds
    the same entries after it. *)
Theorem methods_leave_manager_and_headers st self mode prompt items dialogue_history eh :
  (objs (intelligence_ask self mode prompt items eh st).2 = objs st /\
   forall d, is_Some (dicts st !! d) ->
     dicts (intelligence_ask self mode prompt items eh st).2 !! d = dicts st !! d) /\
  (objs (intelligence_text_gen self prompt items dialogue_history eh st).2 = objs st /\
   forall d, is_Some (dicts st !! d) ->
     dicts (intelligence_text_gen self prompt items dialogue_history eh st).2 !! d =
       dicts st !! d).
Proof.
  rewrite ask_skeleton, text_gen_skeleton. split; apply post_frame.
Qed.

(** ** The constructor *)

(** C9. When [__init__] returns, the manager's [network_session] field
    holds a session: the one given, or the one just constructed when the
    argument is [None].  The [auth] field holds the argument, [None]
    included, and neither request method can then fail to read the base
    URL. *)
Theorem init_sets_network_session st self a ns st' :
  init self a ns st = (Ok tt, st') ->
  exists m n,
    objs st' !! self = Some m /\
    auth m = a /\
    network_session m = Some n /\
    (ns = None -> new_calls st st' = [CallNetworkSession (Ok n)]) /\
    (forall n0, ns = Some n0 -> n = n0 /\ new_calls st st' = []) /\
    (forall mode prompt items eh owner attr,
       (intelligence_ask self mode prompt items eh st').1 <>
         Raise (AttributeError owner attr)) /\
    (forall prompt items dialogue_history eh owner attr,
       (intelligence_text_gen self prompt items dialogue_history eh st').1 <>
         Raise (AttributeError owner attr)).
Proof.
  unfold init, bind, ret, modify, sdk_call, new_calls.
  destruct ns as [n0|]; run_cbn.
  - intros [= <-].
    exists {| auth := a; network_session := Some n0 |}, n0.
    run_cbn. rewrite lookup_insert_eq, drop_all.
    split_and!; try done.
    + by intros ? [= ->].
    + eapply session_readable; [apply lookup_insert_eq | reflexivity].
    + eapply session_readable; [apply lookup_insert_eq | reflexivity].
  - destruct (new_network_session (world st)) as [[n|e] w] eqn:Hn; run_cbn;
      [| discriminate].
    intros [= <-].
    exists {| auth := a; network_session := Some n |}, n.
    run_cbn. rewrite lookup_insert_eq, drop_app_length.
    split_and!; try done.
    + eapply session_readable; [apply lookup_insert_eq | reflexivity].
    + eapply session_readable; [apply lookup_insert_eq | reflexivity].
Qed.

(** ** Further properties of the request methods *)

(** The dictionary [prepare_params] is given holds the caller's headers. *)
Lemma post_prepare_arg st path body self eh h r :
  In (CallPrepareParams h r)
     (new_calls st (post_and_deserialize path body self eh st).2) ->
  h = headers_of st eh.
Proof.
  run_cases st path body self eh; intros Hin; intuition; simplify_eq; done.
Qed.

(** The calls of a run come in one order, the run starts with
    [prepare_params], and only its last call can have raised. *)
Lemma post_order st path body self eh :
  new_calls st (post_and_deserialize path body self eh st).2 <> [] /\
  call_kind <$> new_calls st (post_and_deserialize path body self eh st).2
    `prefix_of` [KPrepareParams; KSerialize; KFetch; KDeserialize] /\
  forall i c,
    new_calls st (post_and_deserialize path body self eh st).2 !! i = Some c ->
    S i < length (new_calls st (post_and_deserialize path body self eh st).2) ->
    call_raised c = None.
Proof.
  run_cases st path body self eh.
  all: split; [done |]; split; [eexists; reflexivity |].
  all: intros i c Hi Hlt.
  all: repeat (destruct i as [|i]; cbn in Hi, Hlt; simplify_eq; try lia; try done).
Qed.

(** Without a session in the manager, a run is the [prepare_params] call
    alone and ends in an exception. *)
Lemma post_without_session st path body self eh :
  (forall m, objs st !! self = Some m -> network_session m = None) ->
  exists r,
    new_calls st (post_and_deserialize path body self eh st).2 =
      [CallPrepareParams (headers_of st eh) r] /\
    match r with
    | Ok _ =>
        exists owner attr,
          (post_and_deserialize path body self eh st).1 =
            Raise (AttributeError owner attr)
    | Raise e =>
        (post_and_deserialize path body self eh st).1 = Raise (SdkRaised e)
    end.
Proof.
  intros Hnone.
  run_cases st path body self eh.
  all: try match goal with
           | Hm : objs _ !! _ = Some ?m, Hn : network_session ?m = Some _ |- _ =>
               rewrite (Hnone m Hm) in Hn; discriminate
           end.
  all: eexists; split; [reflexivity |]; cbn; eauto.
Qed.

(** A run with no extra headers is the run with an empty dictionary. *)
Lemma post_none_as_empty st path body self d :
  dicts st !! d = Some ∅ ->
  (post_and_deserialize path body self None st).1 =
    (post_and_deserialize path body self (Some d) st).1 /\
  new_calls st (post_and_deserialize path body self None st).2 =
    new_calls st (post_and_deserialize path body self (Some d) st).2 /\
  world (post_and_deserialize path body self None st).2 =
    world (post_and_deserialize path body self (Some d) st).2 /\
  objs (post_and_deserialize path body self None st).2 =
    objs (post_and_deserialize path body self (Some d) st).2.
Proof.
  intros Hd. apply lookup_total_correct in Hd.
  unfold new_calls, post_and_deserialize, get_network_session, get_base_url,
    get_auth, new_dict, read_dict, call_prepare_params, sdk_call, bind, ret,
    raise, gets.
  run_cbn. rewrite ?lookup_total_insert_eq, ?Hd.
  repeat run_step.
  all: repeat split; reflexivity.
Qed.

(** What [__init__] leaves behind when it returns. *)
Lemma init_returns st self a ns st' :
  init self a ns st = (Ok tt, st') ->
  exists n,
    objs st' !! self = Some {| auth := a; network_session := Some n |} /\
    (forall n0, ns = Some n0 -> n = n0) /\
    (ns = None -> new_calls st st' = [CallNetworkSession (Ok n)]).
Proof.
  unfold init, bind, ret, modify, sdk_call, new_calls.
  destruct ns as [n0|]; run_cbn.
  - intros [= <-]. exists n0. run_cbn. rewrite lookup_insert_eq.
    split_and!; try done. by intros ? [= ->].
  - destruct (new_network_session (world st)) as [[n|e] w] eqn:Hn; run_cbn;
      [| discriminate].
    intros [= <-]. exists n. run_cbn. rewrite lookup_insert_eq, drop_app_length.
    split_and!; done.
Qed.

(** X1. With [extra_headers] left at [None], either method does what it
    does with an empty dictionary: the same result, the same imported
    calls, the same outside world and the same manager objects. *)
Theorem none_headers_as_empty st self mode prompt items dialogue_history d :
  dicts st !! d = Some ∅ ->
  ((intelligence_ask self mode prompt items None st).1 =
     (intelligence_ask self mode prompt items (Some d) st).1 /\
   new_calls st (intelligence_ask self mode prompt items None st).2 =
     new_calls st (intelligence_ask self mode prompt items (Some d) st).2 /\
   world (intelligence_ask self mode prompt items None st).2 =
     world (intelligence_ask self mode prompt items (Some d) st).2 /\
   objs (intelligence_ask self mode prompt items None st).2 =
     objs (intelligence_ask self mode prompt items (Some d) st).2) /\
  ((intelligence_text_gen self prompt items dialogue_history None st).1 =
     (intelligence_text_gen self prompt items dialogue_history (Some d) st).1 /\
   new_calls st (intelligence_text_gen self prompt items dialogue_history None st).2 =
     new_calls st
       (intelligence_text_gen self prompt items dialogue_history (Some d) st).2 /\
   world (intelligence_text_gen self prompt items dialogue_history None st).2 =
     world (intelligence_text_gen self prompt items dialogue_history (Some d) st).2 /\
   objs (intelligence_text_gen self prompt items dialogue_history None st).2 =
     objs (intelligence_text_gen self prompt items dialogue_history (Some d) st).2).
Proof.
  intros Hd. rewrite !ask_skeleton, !text_gen_skeleton.
  split; apply post_none_as_empty; exact Hd.
Qed.

(** X2. The imported calls of either method come in the order
    [prepare_params], [serialize], [fetch], [deserialize]: a run is a
    non-empty prefix of these four, and every call before its last one
    returned.  So nothing is sent before serialization returned, and nothing
    is deserialized before the fetch returned. *)
Theorem calls_in_order st self mode prompt items dialogue_history eh :
  (new_calls st (intelligence_ask self mode prompt items eh st).2 <> [] /\
   call_kind <$> new_calls st (intelligence_ask self mode prompt items eh st).2
     `prefix_of` [KPrepareParams; KSerialize; KFetch; KDeserialize] /\
   forall i c,
     new_calls st (intelligence_ask self mode prompt items eh st).2 !! i = Some c ->
     S i < length (new_calls st (intelligence_ask self mode prompt items eh st).2) ->
     call_raised c = None) /\
  (new_calls st
     (intelligence_text_gen self prompt items dialogue_history eh st).2 <> [] /\
   call_kind <$>
     new_calls st (intelligence_text_gen self prompt items dialogue_history eh st).2
     `prefix_of` [KPrepareParams; KSerialize; KFetch; KDeserialize] /\
   forall i c,
     new_calls st
       (intelligence_text_gen self prompt items dialogue_history eh st).2 !! i =
       Some c ->
     S i < length (new_calls st
                     (intelligence_text_gen self prompt items dialogue_history eh st).2) ->
     call_raised c = None).
Proof.
  rewrite ask_skeleton, text_gen_skeleton. split; apply post_order.
Qed.

(** X3. On a manager whose [network_session] is [None] (or that has no
    attributes at all), either method calls [prepare_params] and nothing
    else: it serializes nothing, sends nothing, and raises, an attribute
    error when [prepare_params] returned. *)
Theorem no_session_no_request st self mode prompt items dialogue_history eh :
  (forall m, objs st !! self = Some m -> network_session m = None) ->
  (exists r,
     new_calls st (intelligence_ask self mode prompt items eh st).2 =
       [CallPrepareParams (headers_of st eh) r] /\
     match r with
     | Ok _ =>
         exists owner attr,
           (intelligence_ask self mode prompt items eh st).1 =
             Raise (AttributeError owner attr)
     | Raise e =>
         (intelligence_ask self mode prompt items eh st).1 = Raise (SdkRaised e)
     end) /\
  (exists r,
     new_calls st
       (intelligence_text_gen self prompt items dialogue_history eh st).2 =
       [CallPrepareParams (headers_of st eh) r] /\
     match r with
     | Ok _ =>
         exists owner attr,
           (intelligence_text_gen self prompt items dialogue_history eh st).1 =
             Raise (AttributeError owner attr)
     | Raise e =>
         (intelligence_text_gen self prompt items dialogue_history eh st).1 =
           Raise (SdkRaised e)
     end).
Proof.
  intros Hnone. rewrite ask_skeleton, text_gen_skeleton.
  split; apply post_without_session; exact Hnone.
Qed.

(** X4. The headers of every fetch are what [prepare_params] returned for
    the caller's extra headers (for no header when [extra_headers] is
    [None]), called on the world as it was when the method started. *)
Theorem extra_headers_reach_request st self mode prompt items dialogue_history eh
    url o r :
  In (CallFetch url o r)
     (new_calls st (intelligence_ask self mode prompt items eh st).2) \/
  In (CallFetch url o r)
     (new_calls st
        (intelligence_text_gen self prompt items dialogue_history eh st).2) ->
  exists h' w1,
    prepare_params (headers_of st eh) (world st) = (Ok (fo_headers o), h', w1).
Proof.
  rewrite ask_skeleton, text_gen_skeleton.
  intros [Hin | Hin]; apply post_options in Hin.
  all: destruct Hin as (m & hm & d & ns & w1 & _ & _ & -> & _ & h' & Hp).
  all: exists h', w1; exact Hp.
Qed.

(** X5. When [NetworkSession()] raises, [__init__] raises the same
    exception and assigns neither attribute: the manager objects are as
    before, and the constructor call is the only call made. *)
Theorem init_failure_assigns_nothing st self a e w :
  new_network_session (world st) = (Raise e, w) ->
  (init self a None st).1 = Raise (SdkRaised e) /\
  objs (init self a None st).2 = objs st /\
  dicts (init self a None st).2 = dicts st /\
  world (init self a None st).2 = w /\
  new_calls st (init self a None st).2 = [CallNetworkSession (Raise e)].
Proof.
  intros Hn. unfold init, bind, ret, modify, sdk_call, new_calls.
  rewrite Hn. run_cbn. rewrite drop_app_length. done.
Qed.

(** X6. A manager that [__init__] has built sends its requests with the
    [auth] it was given and through the session it was given, or the one
    constructed for it; the URL starts with that session's base URL. *)
Theorem init_then_request st self a ns st1 mode prompt items dialogue_history eh
    url o r :
  init self a ns st = (Ok tt, st1) ->
  In (CallFetch url o r)
     (new_calls st1 (intelligence_ask self mode prompt items eh st1).2) \/
  In (CallFetch url o r)
     (new_calls st1
        (intelligence_text_gen self prompt items dialogue_history eh st1).2) ->
  fo_auth o = a /\
  exists n,
    fo_network_session o = Some n /\
    (forall n0, ns = Some n0 -> n = n0) /\
    (ns = None -> new_calls st st1 = [CallNetworkSession (Ok n)]) /\
    exists w1,
      url = base_url n w1 +:+ "/ai/ask" \/ url = base_url n w1 +:+ "/ai/text_gen".
Proof.
  intros Hinit Hin. apply init_returns in Hinit.
  destruct Hinit as (n & Hm & Hgiven & Hnew).
  rewrite ask_skeleton, text_gen_skeleton in Hin.
  destruct Hin as [Hin | Hin]; apply post_options in Hin.
  all: destruct Hin as (m & hm & d & ns' & w1 & Hm' & Hns & -> & -> & _).
  all: rewrite Hm in Hm'; injection Hm' as <-; cbn in Hns; injection Hns as <-.
  all: split; [reflexivity |]; exists n; split_and!; try done.
  all: exists w1; first [left; reflexivity | right; reflexivity].
Qed.

(** X7. The caller's headers can be reused: after one request made with
    a dictionary, a second request made with the same dictionary hands
    [prepare_params] the headers the dictionary held before the first, and
    finds the same manager. *)
Theorem headers_reusable st self mode prompt items prompt' items' dialogue_history d :
  is_Some (dicts st !! d) ->
  (forall h r,
     In (CallPrepareParams h r)
        (new_calls (intelligence_ask self mode prompt items (Some d) st).2
           (intelligence_text_gen self prompt' items' dialogue_history (Some d)
              (intelligence_ask self mode prompt items (Some d) st).2).2) ->
     h = dicts st !!! d) /\
  (forall h r,
     In (CallPrepareParams h r)
        (new_calls
           (intelligence_text_gen self prompt' items' dialogue_history (Some d) st).2
           (intelligence_ask self mode prompt items (Some d)
              (intelligence_text_gen self prompt' items' dialogue_history
                 (Some d) st).2).2) ->
     h = dicts st !!! d) /\
  objs (intelligence_text_gen self prompt' items' dialogue_history (Some d)
          (intelligence_ask self mode prompt items (Some d) st).2).2 = objs st.
Proof.
  intros Hd. rewrite !ask_skeleton, !text_gen_skeleton.
  split_and!.
  - intros h r Hin. apply post_prepare_arg in Hin. subst h. cbn [headers_of].
    rewrite !lookup_total_alt. f_equal. by apply post_frame.
  - intros h r Hin. apply post_prepare_arg in Hin. subst h. cbn [headers_of].
    rewrite !lookup_total_alt. f_equal. by apply post_frame.
  - etrans; apply post_frame.
Qed.

End Runs.

(** ** The theorems at work on the sample SDK *)

Section Samples.
#[local] Existing Instance Sample.types.
#[local] Existing Instance Sample.sdk.

(** The request of [intelligence_ask] on the sample SDK. *)
Lemma ask_posts_once_witness :
  exists o,
    fetches (new_calls Sample.ready
               (intelligence_ask 1 "multiple_item_qa" "Summarize" ["file 123"]
                  (Some 1%positive) Sample.ready).2) =
      [("https://api.box.com/2.0/ai/ask", o)] /\
    fo_method o = "POST" /\
    fo_data o = Sample.echo ["mode"; "prompt"; "items"] /\
    In (CallSerialize
          [("mode", PyMode "multiple_item_qa"); ("prompt", PyStr "Summarize");
           ("items", PyItems ["file 123"])]
          (Ok (Sample.echo ["mode"; "prompt"; "items"])))
       (new_calls Sample.ready
          (intelligence_ask 1 "multiple_item_qa" "Summarize" ["file 123"]
             (Some 1%positive) Sample.ready).2).
Proof.
  eapply (@ask_posts_once Sample.types Sample.sdk Sample.ready 1%positive
            _ "https://api.box.com/2.0" _ _ _ _ _ _ 0%nat);
    reflexivity.
Defined.

(** The request of [intelligence_text_gen] on the sample SDK, with no
    dialogue history and no extra headers. *)
Lemma text_gen_posts_once_witness :
  exists o,
    fetches (new_calls Sample.ready
               (intelligence_text_gen 1 "Write a haiku" ["file 123"] None None
                  Sample.ready).2) =
      [("https://api.box.com/2.0/ai/text_gen", o)] /\
    fo_method o = "POST" /\
    fo_data o = Sample.echo ["prompt"; "items"; "dialogue_history"] /\
    In (CallSerialize
          [("prompt", PyStr "Write a haiku"); ("items", PyItems ["file 123"]);
           ("dialogue_history", py_of_opt_items None)]
          (Ok (Sample.echo ["prompt"; "items"; "dialogue_history"])))
       (new_calls Sample.ready
          (intelligence_text_gen 1 "Write a haiku" ["file 123"] None None
             Sample.ready).2).
Proof.
  eapply (@text_gen_posts_once Sample.types Sample.sdk Sample.ready 1%positive
            _ "https://api.box.com/2.0" _ _ _ _ _ _ 0%nat);
    reflexivity.
Defined.

(** On the sample SDK both methods answer with the deserialized echo of
    their request. *)
Lemma response_deserialized_witness :
  ((intelligence_ask 1 "multiple_item_qa" "Summarize" ["file 123"]
      (Some 1%positive) Sample.ready).1 =
     Ok (Sample.echo ["mode"; "prompt"; "items"]) /\
   In (CallFetch "https://api.box.com/2.0/ai/ask"
         (Sample.options ["mode"; "prompt"; "items"])
         (Ok (Sample.echo ["mode"; "prompt"; "items"])))
      (new_calls Sample.ready
         (intelligence_ask 1 "multiple_item_qa" "Summarize" ["file 123"]
            (Some 1%positive) Sample.ready).2) /\
   last (new_calls Sample.ready
           (intelligence_ask 1 "multiple_item_qa" "Summarize" ["file 123"]
              (Some 1%positive) Sample.ready).2) =
     Some (CallDeserialize (Sample.echo ["mode"; "prompt"; "items"])
             IntelligenceResponse
             (Ok (Sample.echo ["mode"; "prompt"; "items"])))) /\
  ((intelligence_text_gen 1 "Summarize" ["file 123"] None
      (Some 1%positive) Sample.ready).1 =
     Ok (Sample.echo ["prompt"; "items"; "dialogue_history"]) /\
   In (CallFetch "https://api.box.com/2.0/ai/text_gen"
         (Sample.options ["prompt"; "items"; "dialogue_history"])
         (Ok (Sample.echo ["prompt"; "items"; "dialogue_history"])))
      (new_calls Sample.ready
         (intelligence_text_gen 1 "Summarize" ["file 123"] None
            (Some 1%positive) Sample.ready).2) /\
   last (new_calls Sample.ready
           (intelligence_text_gen 1 "Summarize" ["file 123"] None
              (Some 1%positive) Sample.ready).2) =
     Some (CallDeserialize (Sample.echo ["prompt"; "items"; "dialogue_history"])
             IntelligenceResponse
             (Ok (Sample.echo ["prompt"; "items"; "dialogue_history"])))).
Proof.
  destruct (proj2 (proj2 (@response_deserialized Sample.types Sample.sdk
                            Sample.ready 1%positive "multiple_item_qa"
                            "Summarize" ["file 123"] None (Some 1%positive)))
              Sample.manager "https://api.box.com/2.0"
              {[ "x-rep-hints" := "[pdf]" ]}
              {[ "x-rep-hints" := Some "[pdf]"; "x-unset" := None ]}
              0%nat eq_refl eq_refl eq_refl) as [Hask Htext].
  split.
  - apply (Hask (Sample.echo ["mode"; "prompt"; "items"]) 0%nat
             (Sample.echo ["mode"; "prompt"; "items"]) 1%nat
             (Ok (Sample.echo ["mode"; "prompt"; "items"])) 1%nat);
      reflexivity.
  - apply (Htext (Sample.echo ["prompt"; "items"; "dialogue_history"]) 0%nat
             (Sample.echo ["prompt"; "items"; "dialogue_history"]) 1%nat
             (Ok (Sample.echo ["prompt"; "items"; "dialogue_history"])) 1%nat);
      reflexivity.
Defined.

(** On the sample SDK the one fetch of each method carries the sample
    manager's fields. *)
Lemma fetch_options_from_manager_witness :
  (exists o,
     fetches (new_calls Sample.ready
                (intelligence_ask 1 "multiple_item_qa" "Summarize" ["file 123"]
                   (Some 1%positive) Sample.ready).2) =
       [("https://api.box.com/2.0/ai/ask", o)] /\
     fo_auth o = auth Sample.manager /\
     fo_network_session o = network_session Sample.manager /\
     fo_method o = "POST" /\
     fo_content_type o = "application/json" /\
     fo_response_format o = "json" /\
     fo_headers o = {[ "x-rep-hints" := "[pdf]" ]} /\
     fo_data o = Sample.echo ["mode"; "prompt"; "items"]) /\
  (exists o,
     fetches (new_calls Sample.ready
                (intelligence_text_gen 1 "Summarize" ["file 123"] None
                   (Some 1%positive) Sample.ready).2) =
       [("https://api.box.com/2.0/ai/text_gen", o)] /\
     fo_auth o = auth Sample.manager /\
     fo_network_session o = network_session Sample.manager /\
     fo_method o = "POST" /\
     fo_content_type o = "application/json" /\
     fo_response_format o = "json" /\
     fo_headers o = {[ "x-rep-hints" := "[pdf]" ]} /\
     fo_data o = Sample.echo ["prompt"; "items"; "dialogue_history"]).
Proof.
  destruct (proj2 (@fetch_options_from_manager Sample.types Sample.sdk
                     Sample.ready 1%positive "multiple_item_qa" "Summarize"
                     ["file 123"] None (Some 1%positive))
              Sample.manager "https://api.box.com/2.0"
              {[ "x-rep-hints" := "[pdf]" ]}
              {[ "x-rep-hints" := Some "[pdf]"; "x-unset" := None ]}
              0%nat eq_refl eq_refl eq_refl) as [Hask Htext].
  split.
  - apply (Hask (Sample.echo ["mode"; "prompt"; "items"]) 0%nat). reflexivity.
  - apply (Htext (Sample.echo ["prompt"; "items"; "dialogue_history"]) 0%nat).
    reflexivity.
Defined.

(** With the network down, the sample request raises what [fetch] raised. *)
Lemma errors_propagate_without_retry_witness :
  (intelligence_ask (SDK := Sample.offline) 1 "multiple_item_qa" "Summarize"
     ["file 123"] (Some 1%positive) Sample.ready).1 =
    Raise (SdkRaised "connection refused").
Proof.
  apply (proj1 (@errors_propagate_without_retry Sample.types Sample.offline
                  Sample.ready 1%positive "multiple_item_qa" "Summarize"
                  ["file 123"] None (Some 1%positive))
           (CallFetch "https://api.box.com/2.0/ai/ask"
              (Sample.options ["mode"; "prompt"; "items"])
              (Raise "connection refused"))).
  - vm_compute. tauto.
  - reflexivity.
Defined.

(** The two sample requests differ in the suffix of the URL only. *)
Lemma methods_differ_in_path_and_body_witness :
  exists base,
    "https://api.box.com/2.0/ai/ask" = base +:+ "/ai/ask" /\
    "https://api.box.com/2.0/ai/text_gen" = base +:+ "/ai/text_gen".
Proof.
  apply (proj2 (proj2 (@methods_differ_in_path_and_body Sample.types Sample.sdk
                         Sample.ready 1%positive "multiple_item_qa" "Summarize"
                         ["file 123"] None (Some 1%positive)))
           "https://api.box.com/2.0/ai/ask"
           (Sample.options ["mode"; "prompt"; "items"])
           (Ok (Sample.echo ["mode"; "prompt"; "items"]))
           "https://api.box.com/2.0/ai/text_gen"
           (Sample.options ["prompt"; "items"; "dialogue_history"])
           (Ok (Sample.echo ["prompt"; "items"; "dialogue_history"]))).
  - vm_compute. tauto.
  - vm_compute. tauto.
Defined.

(** The sample text generation serializes a dictionary with the key
    "dialogue_history". *)
Lemma text_gen_keeps_null_history_witness :
  exists body r,
    In (CallSerialize body r)
       (new_calls Sample.ready
          (intelligence_text_gen 1 "Write a haiku" ["file 123"] None None
             Sample.ready).2).
Proof.
  eapply (proj2 (@text_gen_keeps_null_history Sample.types Sample.sdk
                   Sample.ready 1%positive "Write a haiku" ["file 123"] None));
    reflexivity.
Defined.

(** Built with neither argument, the sample manager holds the session the
    SDK constructs and no authentication. *)
Lemma init_sets_network_session_witness :
  exists m n,
    objs (init 1 None None Sample.empty).2 !! 1%positive = Some m /\
    auth m = None /\
    network_session m = Some n /\
    (@None NetworkSession = None ->
     new_calls Sample.empty (init 1 None None Sample.empty).2 =
       [CallNetworkSession (Ok n)]) /\
    (forall n0, None = Some n0 ->
       n = n0 /\ new_calls Sample.empty (init 1 None None Sample.empty).2 = []) /\
    (forall mode prompt items eh owner attr,
       (intelligence_ask 1 mode prompt items eh
          (init 1 None None Sample.empty).2).1 <>
         Raise (AttributeError owner attr)) /\
    (forall prompt items dialogue_history eh owner attr,
       (intelligence_text_gen 1 prompt items dialogue_history eh
          (init 1 None None Sample.empty).2).1 <>
         Raise (AttributeError owner attr)).
Proof.
  apply (@init_sets_network_session Sample.types Sample.sdk Sample.empty
           1%positive None None).
  reflexivity.
Defined.

(** The caller's headers are the same after the sample request. *)
Lemma methods_leave_manager_and_headers_witness :
  dicts (intelligence_ask 1 "multiple_item_qa" "Summarize" ["file 123"]
           (Some 1%positive) Sample.ready).2 !! 1%positive =
    dicts Sample.ready !! 1%positive.
Proof.
  apply (proj2 (proj1 (@methods_leave_manager_and_headers Sample.types Sample.sdk
                         Sample.ready 1%positive "multiple_item_qa" "Summarize"
                         ["file 123"] None (Some 1%positive)))).
  eexists. reflexivity.
Defined.

(** The sample run, call by call. *)
Example sample_ask_calls :
  new_calls Sample.ready
    (intelligence_ask 1 "multiple_item_qa" "Summarize" ["file 123"]
       (Some 1%positive) Sample.ready).2 =
  [CallPrepareParams {[ "x-rep-hints" := Some "[pdf]"; "x-unset" := None ]}
     (Ok {[ "x-rep-hints" := "[pdf]" ]});
   CallSerialize
     [("mode", PyMode "multiple_item_qa"); ("prompt", PyStr "Summarize");
      ("items", PyItems ["file 123"])]
     (Ok (Sample.echo ["mode"; "prompt"; "items"]));
   CallFetch "https://api.box.com/2.0/ai/ask"
     (Sample.options ["mode"; "prompt"; "items"])
     (Ok (Sample.echo ["mode"; "prompt"; "items"]));
   CallDeserialize (Sample.echo ["mode"; "prompt"; "items"]) "IntelligenceResponse"
     (Ok (Sample.echo ["mode"; "prompt"; "items"]))].
Proof. reflexivity. Qed.

(** Leaving the headers out of the sample request changes nothing when the
    caller's dictionary is empty. *)
Lemma none_headers_as_empty_witness :
  (intelligence_ask 1 "multiple_item_qa" "Summarize" ["file 123"] None
     Sample.with_blank).1 =
  (intelligence_ask 1 "multiple_item_qa" "Summarize" ["file 123"]
     (Some 2%positive) Sample.with_blank).1.
Proof.
  apply (proj1 (proj1 (@none_headers_as_empty Sample.types Sample.sdk
                         Sample.with_blank 1%positive "multiple_item_qa"
                         "Summarize" ["file 123"] None 2%positive eq_refl))).
Defined.

(** The kinds of the calls of the sample request. *)
Lemma calls_in_order_witness :
  call_kind <$>
    new_calls Sample.ready
      (intelligence_ask 1 "multiple_item_qa" "Summarize" ["file 123"]
         (Some 1%positive) Sample.ready).2
    `prefix_of` [KPrepareParams; KSerialize; KFetch; KDeserialize].
Proof.
  apply (proj1 (proj2 (proj1 (@calls_in_order Sample.types Sample.sdk
                                Sample.ready 1%positive "multiple_item_qa"
                                "Summarize" ["file 123"] None
                                (Some 1%positive))))).
Defined.

(** Once its session is cleared, the sample manager sends nothing. *)
Lemma no_session_no_request_witness :
  exists r,
    new_calls Sample.cleared
      (intelligence_ask 1 "multiple_item_qa" "Summarize" ["file 123"]
         (Some 1%positive) Sample.cleared).2 =
      [CallPrepareParams (headers_of Sample.cleared (Some 1%positive)) r] /\
    match r with
    | Ok _ =>
        exists owner attr,
          (intelligence_ask 1 "multiple_item_qa" "Summarize" ["file 123"]
             (Some 1%positive) Sample.cleared).1 =
            Raise (AttributeError owner attr)
    | Raise e =>
        (intelligence_ask 1 "multiple_item_qa" "Summarize" ["file 123"]
           (Some 1%positive) Sample.cleared).1 = Raise (SdkRaised e)
    end.
Proof.
  apply (proj1 (@no_session_no_request Sample.types Sample.sdk Sample.cleared
                  1%positive "multiple_item_qa" "Summarize" ["file 123"] None
                  (Some 1%positive)
                  (fun m Hm =>
                     f_equal (fun o => match o with
                                       | Some m' => network_session m'
                                       | None => None
                                       end) (eq_sym Hm)))).
Defined.

(** The headers of the sample request are the caller's, without the one
    set to [None]. *)
Lemma extra_headers_reach_request_witness :
  exists h' w1,
    prepare_params (headers_of Sample.ready (Some 1%positive))
      (world Sample.ready) =
      (Ok (fo_headers (Sample.options ["mode"; "prompt"; "items"])), h', w1).
Proof.
  apply (@extra_headers_reach_request Sample.types Sample.sdk Sample.ready
           1%positive "multiple_item_qa" "Summarize" ["file 123"] None
           (Some 1%positive) "https://api.box.com/2.0/ai/ask" _
           (Ok (Sample.echo ["mode"; "prompt"; "items"]))).
  left. vm_compute. tauto.
Defined.

(** When no session can be constructed, the sample manager is not built. *)
Lemma init_failure_assigns_nothing_witness :
  (init (BT := Sample.types) (SDK := Sample.sessionless) 1 (auth Sample.manager) None Sample.empty).1 =
    Raise (SdkRaised "no configuration") /\
  objs (init (BT := Sample.types) (SDK := Sample.sessionless) 1 (auth Sample.manager) None Sample.empty).2 =
    objs Sample.empty /\
  dicts (init (BT := Sample.types) (SDK := Sample.sessionless) 1 (auth Sample.manager) None Sample.empty).2 =
    dicts Sample.empty /\
  world (init (BT := Sample.types) (SDK := Sample.sessionless) 1 (auth Sample.manager) None Sample.empty).2 =
    0%nat /\
  new_calls Sample.empty
    (init (BT := Sample.types) (SDK := Sample.sessionless) 1 (auth Sample.manager) None Sample.empty).2 =
    [CallNetworkSession (Raise "no configuration")].
Proof.
  apply (@init_failure_assigns_nothing Sample.types Sample.sessionless
           Sample.empty 1%positive (auth Sample.manager) "no configuration" 0%nat).
  reflexivity.
Defined.

(** The sample manager's request carries the token it was built with and
    the session constructed for it. *)
Lemma init_then_request_witness :
  fo_auth (json_post (BT := Sample.types) ∅
             (Sample.echo ["mode"; "prompt"; "items"]) Sample.manager) =
    auth Sample.manager /\
  exists n,
    fo_network_session
      (json_post (BT := Sample.types) ∅
         (Sample.echo ["mode"; "prompt"; "items"]) Sample.manager) = Some n /\
    (forall n0, None = Some n0 -> n = n0) /\
    (@None NetworkSession = None ->
     new_calls Sample.empty (init 1 (auth Sample.manager) None Sample.empty).2 =
       [CallNetworkSession (Ok n)]) /\
    exists w1,
      "https://api.box.com/2.0/ai/ask" = base_url n w1 +:+ "/ai/ask" \/
      "https://api.box.com/2.0/ai/ask" = base_url n w1 +:+ "/ai/text_gen".
Proof.
  apply (@init_then_request Sample.types Sample.sdk Sample.empty 1%positive
           (auth Sample.manager) None
           (init 1 (auth Sample.manager) None Sample.empty).2
           "multiple_item_qa" "Summarize" ["file 123"] None
           None "https://api.box.com/2.0/ai/ask"
           (json_post (BT := Sample.types) ∅
              (Sample.echo ["mode"; "prompt"; "items"]) Sample.manager)
           (Ok (Sample.echo ["mode"; "prompt"; "items"]))).
  - reflexivity.
  - left. vm_compute. tauto.
Defined.

(** After two sample requests with the caller's dictionary, the manager is
    the one of before. *)
Lemma headers_reusable_witness :
  objs (intelligence_text_gen 1 "Write a haiku" ["file 123"] None
          (Some 1%positive)
          (intelligence_ask 1 "multiple_item_qa" "Summarize" ["file 123"]
             (Some 1%positive) Sample.ready).2).2 =
    objs Sample.ready.
Proof.
  apply (proj2 (proj2 (@headers_reusable Sample.types Sample.sdk Sample.ready
                         1%positive "multiple_item_qa" "Summarize" ["file 123"]
                         "Write a haiku" ["file 123"] None 1%positive
                         (ex_intro _ _ eq_refl)))).
Defined.

End Samples.
End IntelligenceSpec.

(** * Properties of workshops/sign/create_samples.py *)

Module CreateSamplesSpec.
Import Py CreateSamples.

Section Runs.
Context `{BU : BoxUtils}.


(** ** Further properties of the script *)

(** Every run of the script is one of the runs of [SamplesRun]. *)
Lemma samples_run_sound client st :
  SamplesRun client (create_samples client st).1
    (new_calls st (create_samples client st).2).
Proof.
  unfold create_samples, new_calls, bind, ret, call.
  repeat match goal with
         | |- context [get_folder_by_id ?c ?i ?o] =>
             destruct (get_folder_by_id c i o) as [[?|?] ?];
             cbn -[drop length app]
         | |- context [create_box_folder ?c ?n ?p ?o] =>
             destruct (create_box_folder c n p o) as [[?|?] ?];
             cbn -[drop length app]
         | |- context [folder_upload ?c ?f ?p ?o] =>
             destruct (folder_upload c f p o) as [[?|?] ?];
             cbn -[drop length app]
         end.
  all: rewrite <- ?app_assoc, drop_app_length; constructor.
Qed.

(** X8. The script uploads only as its sixth call: after the lookup and
    the four creations have all returned, from the samples directory, and
    into the folder returned for "docs".  When a lookup or a creation raises,
    nothing is uploaded. *)
Theorem upload_only_into_docs client st cl folder path r :
  In (CallFolderUpload cl folder path r)
     (new_calls st (create_samples client st).2) ->
  cl = client /\
  path = "workshops/sign/content_samples/" /\
  exists root wks sign signed,
    new_calls st (create_samples client st).2 =
      [CallGetFolderById client "0" (Ok root);
       CallCreateBoxFolder client "workshops" root (Ok wks);
       CallCreateBoxFolder client "sign" wks (Ok sign);
       CallCreateBoxFolder client "signed docs" sign (Ok signed);
       CallCreateBoxFolder client "docs" sign (Ok folder);
       CallFolderUpload client folder "workshops/sign/content_samples/" r].
Proof.
  generalize (samples_run_sound client st).
  generalize (create_samples client st).1.
  generalize (new_calls st (create_samples client st).2).
  intros cs res Hrun. destruct Hrun; cbn [In seeding]; intros Hin.
  all: repeat match goal with
              | H : _ \/ _ |- _ => destruct H
              | H : False |- _ => destruct H
              end; simplify_eq.
  all: split_and!; try reflexivity; eauto 10.
Qed.

(** X9. The script handles no error: it raises exactly when its last
    call raised, with that call's exception, and no call is made after one
    that raised. *)
Theorem create_samples_raises_last_error client st :
  (forall c e,
     In c (new_calls st (create_samples client st).2) ->
     call_raised c = Some e ->
     (create_samples client st).1 = Raise e /\
     last (new_calls st (create_samples client st).2) = Some c) /\
  (forall e,
     (create_samples client st).1 = Raise e ->
     exists c,
       last (new_calls st (create_samples client st).2) = Some c /\
       call_raised c = Some e).
Proof.
  generalize (samples_run_sound client st).
  generalize (create_samples client st).1.
  generalize (new_calls st (create_samples client st).2).
  intros cs res Hrun. destruct Hrun; cbn [In seeding last].
  all: split;
    [ intros c0 e0 Hin Hr; intuition; simplify_eq; cbn in Hr; simplify_eq; done
    | intros e0 He; simplify_eq; eexists; split; reflexivity ].
Qed.

End Runs.

(** ** The theorem at work on the sample account *)

Section Samples.
#[local] Existing Instance Sample.types.
#[local] Existing Instance Sample.utils.


(** What those six calls are on the sample account. *)
Example sample_seeding :
  new_calls Sample.empty (create_samples "client" Sample.empty).2 =
    seeding "client" "0" "0/workshops" "0/workshops/sign"
      "0/workshops/sign/signed docs" "0/workshops/sign/docs" 3.
Proof. reflexivity. Qed.

(** When the name "sign" is refused, the run stops after three calls. *)
Example sample_refused :
  (create_samples (BU := Sample.refusing) "client" Sample.empty).1 =
    Raise "conflict" /\
  new_calls Sample.empty
    (create_samples (BU := Sample.refusing) "client" Sample.empty).2 =
    [CallGetFolderById "client" "0" (Ok "0");
     CallCreateBoxFolder "client" "workshops" "0" (Ok "0/workshops");
     CallCreateBoxFolder "client" "sign" "0/workshops" (Raise "conflict")].
Proof. split; reflexivity. Qed.

(** The upload of the sample run goes into the "docs" folder. *)
Lemma upload_only_into_docs_witness :
  "client" = "client" /\
  "workshops/sign/content_samples/" = "workshops/sign/content_samples/" /\
  exists root wks sign signed,
    new_calls Sample.empty (create_samples "client" Sample.empty).2 =
      [CallGetFolderById "client" "0" (Ok root);
       CallCreateBoxFolder "client" "workshops" root (Ok wks);
       CallCreateBoxFolder "client" "sign" wks (Ok sign);
       CallCreateBoxFolder "client" "signed docs" sign (Ok signed);
       CallCreateBoxFolder "client" "docs" sign (Ok "0/workshops/sign/docs");
       CallFolderUpload "client" "0/workshops/sign/docs"
         "workshops/sign/content_samples/" (Ok 3)].
Proof.
  apply (@upload_only_into_docs Sample.types Sample.utils "client" Sample.empty
           "client" "0/workshops/sign/docs" "workshops/sign/content_samples/"
           (Ok 3)).
  vm_compute. tauto.
Defined.

(** When "sign" is refused, the sample run raises the conflict. *)
Lemma create_samples_raises_last_error_witness :
  (create_samples (BU := Sample.refusing) "client" Sample.empty).1 =
    Raise "conflict" /\
  last (new_calls Sample.empty
          (create_samples (BU := Sample.refusing) "client" Sample.empty).2) =
    Some (CallCreateBoxFolder "client" "sign" "0/workshops" (Raise "conflict")).
Proof.
  apply (proj1 (@create_samples_raises_last_error Sample.types Sample.refusing
                  "client" Sample.empty)
           (@CallCreateBoxFolder Sample.types "client" "sign" "0/workshops"
              (Raise "conflict"))).
  - vm_compute. tauto.
  - reflexivity.
Defined.

End Samples.
End CreateSamplesSpec.

(** * Properties of workshops/search/search_init.py *)

Module SearchInitSpec.
Import Py SearchInit.

Section Runs.
Context `{IM : Imports}.

(** X10. [main] authenticates before it uploads, with the module's
    [conf], and uploads only with the client that call returned: when
    [get_client_oauth] raises, [main] raises the same exception and uploads
    nothing.  What the upload raises is raised too, what it returns is
    dropped, and [conf] is left as it was. *)
Theorem main_uploads_with_its_client st :
  (exists r,
     head (new_calls st (main st).2) = Some (CallGetClientOAuth (conf st) r)) /\
  (forall client r,
     In (CallUploadContentSample client r) (new_calls st (main st).2) ->
     new_calls st (main st).2 =
       [CallGetClientOAuth (conf st) (Ok client);
        CallUploadContentSample client r] /\
     (main st).1 = match r with Ok _ => Ok tt | Raise e => Raise e end) /\
  (forall e o,
     get_client_oauth (conf st) (outside st) = (Raise e, o) ->
     (main st).1 = Raise e /\
     new_calls st (main st).2 = [CallGetClientOAuth (conf st) (Raise e)]) /\
  conf (main st).2 = conf st.
Proof.
  unfold main, new_calls, bind, ret, gets, call. cbn -[drop length app].
  destruct (get_client_oauth (conf st) (outside st)) as [[client|e] o] eqn:Hg;
    cbn -[drop length app].
  - destruct (upload_content_sample client o) as [[up|e] o'] eqn:Hu;
      cbn -[drop length app].
    all: rewrite <- ?app_assoc, drop_app_length; cbn.
    all: split_and!; eauto; try done.
    all: intros c r Hin; intuition; simplify_eq; done.
  - rewrite drop_app_length; cbn.
    split_and!; eauto.
    + intros c r Hin; intuition; simplify_eq.
    + intros e0 o0 [= <- <-]. done.
Qed.

End Runs.

(** ** The theorem at work on the sample setting *)

Section Samples.
#[local] Existing Instance Sample.types.
#[local] Existing Instance Sample.imports.

(** With the token refused, the sample [main] uploads nothing. *)
Lemma main_uploads_with_its_client_witness :
  (main (IM := Sample.unauthorized) Sample.start).1 = Raise "invalid_grant" /\
  new_calls Sample.start (main (IM := Sample.unauthorized) Sample.start).2 =
    [CallGetClientOAuth ".oauth.env" (Raise "invalid_grant")].
Proof.
  apply (proj1 (proj2 (proj2 (@main_uploads_with_its_client Sample.types
                                Sample.unauthorized Sample.start)))
           "invalid_grant" 0%nat).
  reflexivity.
Defined.

(** The sample [main], call by call. *)
Example sample_main :
  (main Sample.start).1 = Ok tt /\
  new_calls Sample.start (main Sample.start).2 =
    [CallGetClientOAuth ".oauth.env" (Ok "client of .oauth.env");
     CallUploadContentSample "client of .oauth.env" (Ok 1)].
Proof. split; reflexivity. Qed.

End Samples.
End SearchInitSpec.
